(** * AddonModResourceHelperProvider (addon/mod/resource/providers/helper.ts)

    A shallow embedding of the resource helper of the Moodle mobile app and
    the properties of its five operations: [getEmbeddedHtml], [getIframeSrc],
    [isDisplayedEmbedded], [isDisplayedInIframe] and [openModuleFile].

    Conventions of the embedding.
    - A JavaScript [number] is an IEEE-754 binary64: [PrimFloat.float], and
      the loose equality [==] between two numbers is [PrimFloat.eqb].
    - A JavaScript string is a [string]; its characters stand for code units.
    - Synchronous code that may throw returns a [Completion].
    - A promise is a computation over a [World] that settles: it returns
      [Fulfilled v] or [Rejected reason] together with the new world.  The
      world carries the chronological trace of the calls made to the
      side-effecting collaborators, and the queue of reactions that were
      registered on a promise nobody waits for and that run after the main
      chain is over.
    - The injected providers are records; the helper is defined in a section
      over them, as the class receives them in its constructor.  A provider
      method that returns a promise is given by the way that promise settles;
      the calls that show or dismiss a modal return nothing and do not
      throw. *)

From Stdlib Require Import PrimFloat.
From Stdlib Require Import Bool List String Ascii ZArith Lia.
Import ListNotations.

Local Open Scope list_scope.
Local Open Scope string_scope.

(* ================================================================= *)
(** ** JavaScript values and control *)

(** The values that travel as rejection reasons, thrown errors or opaque
    tokens. *)
Inductive JsVal : Type :=
| VNull
| VUndefined
| VBool (b : bool)
| VNumber (z : Z)
| VString (s : string)
| VError (name message : string).

(** The error raised by reading property [prop] of [undefined]. *)
Definition TypeError_undefined (prop : string) : JsVal :=
  VError "TypeError" ("Cannot read property '" ++ prop ++ "' of undefined").

(** Outcome of synchronous code. *)
Inductive Completion (A : Type) : Type :=
| Normal (value : A)
| Throw (error : JsVal).
Arguments Normal {A} value.
Arguments Throw {A} error.

Definition bindC {A B : Type} (c : Completion A) (k : A -> Completion B)
  : Completion B :=
  match c with
  | Normal v => k v
  | Throw e => Throw e
  end.

Notation "x <- c ;; k" := (bindC c (fun x => k))
  (at level 61, c at next level, right associativity).

(** The result [o] of an array access about to have its property [prop]
    read: out of range the access gave [undefined], and the read throws. *)
Definition deref {A : Type} (o : option A) (prop : string) : Completion A :=
  match o with
  | Some a => Normal a
  | None => Throw (TypeError_undefined prop)
  end.

(** [s.substr(start)] for a non-negative [start]. *)
Fixpoint substr (start : nat) (s : string) : string :=
  match start, s with
  | O, _ => s
  | S n, EmptyString => EmptyString
  | S n, String _ rest => substr n rest
  end.

(** The double-quote character, and the one-character string holding it. *)
Definition dquote : ascii := ascii_of_nat 34.
Definition dq : string := String dquote EmptyString.

(* ================================================================= *)
(** ** Data model *)

(** An entry of [module.contents]. [fileurl] may be absent. *)
Record File : Type := mkFile {
  filename : string;
  filepath : string;
  fileurl : option string
}.

(** The module object, with the fields the helper reads. *)
Record CourseModule : Type := mkCourseModule {
  id : Z;
  course : Z;
  instance : Z;
  url : string;
  contents : list File;
  completionstatus : JsVal
}.

(** Truthiness of an optional string: [undefined] and the empty string are
    falsy. *)
Definition truthy (s : option string) : bool :=
  match s with
  | Some EmptyString => false
  | Some (String _ _) => true
  | None => false
  end.

(** [!module.contents.length] *)
Definition noContents (m : CourseModule) : bool :=
  Nat.eqb (List.length (contents m)) 0.

(** [module.contents[0]] *)
Definition firstContent (m : CourseModule) : option File :=
  nth_error (contents m) 0.

(* ================================================================= *)
(** ** Promises over a world of observable calls *)

Inductive Settled (A : Type) : Type :=
| Fulfilled (value : A)
| Rejected (reason : JsVal).
Arguments Fulfilled {A} value.
Arguments Rejected {A} reason.

(** When a promise that nobody awaits settles: already when it is returned
    (its reactions run before the caller's chain goes on), or in a later turn
    of the event loop. *)
Inductive Timing : Type := Early | Late.

(** The result handed back by the download step of [getEmbeddedHtml]. *)
Record DownloadResult : Type := mkDownloadResult { path : string }.

(** Calls to side-effecting collaborators, in the order they happen. *)
Inductive Event : Type :=
| ShowModalLoading
| ModalDismiss
| ShowErrorModalDefault (error : JsVal) (key : string) (needsTranslate : bool)
| DownloadModuleWithMainFileIfNeeded
    (moduleId courseId : Z) (component : string) (componentId : Z) (files : list File)
| DownloadModuleAndOpenFile
    (moduleId courseId : Z) (component : string) (componentId : Z) (files : list File)
| GetPackageDirUrlByUrl (siteId moduleUrl : string)
| LogView (instanceId : Z)
| CheckModuleCompletion (courseId : Z) (completion : JsVal).

(** A reaction that runs detached from the caller: all it can do is call
    collaborators. *)
Definition Task : Type := list Event -> list Event.

Record World : Type := mkWorld {
  trace : list Event;
  later : list Task
}.

Definition emptyWorld : World := mkWorld [] [].

Definition log (ev : Event) (w : World) : World :=
  mkWorld (trace w ++ [ev])%list (later w).

Definition defer (t : Task) (w : World) : World :=
  mkWorld (trace w) (later w ++ [t])%list.

Definition Promise (A : Type) : Type := World -> Settled A * World.

(** [Promise.resolve(v)], also a callback that returns [v]. *)
Definition Promise_resolve {A : Type} (v : A) : Promise A :=
  fun w => (Fulfilled v, w).

(** [Promise.reject(e)], also a callback that throws [e]. *)
Definition Promise_reject {A : Type} (e : JsVal) : Promise A :=
  fun w => (Rejected e, w).

(** A callback whose body is synchronous code. *)
Definition ofCompletion {A : Type} (c : Completion A) : Promise A :=
  match c with
  | Normal v => Promise_resolve v
  | Throw e => Promise_reject e
  end.

(** A call to a promise-returning collaborator: the call is observed, and the
    promise settles the way the collaborator decides. *)
Definition call {A : Type} (ev : Event) (outcome : Settled A) : Promise A :=
  fun w => (outcome, log ev w).

(** [p.then(onFulfilled)] *)
Definition then_ {A B : Type} (p : Promise A) (onFulfilled : A -> Promise B)
  : Promise B :=
  fun w =>
    match p w with
    | (Fulfilled v, w') => onFulfilled v w'
    | (Rejected e, w') => (Rejected e, w')
    end.

(** [p.catch(onRejected)] *)
Definition catch_ {A : Type} (p : Promise A) (onRejected : JsVal -> Promise A)
  : Promise A :=
  fun w =>
    match p w with
    | (Fulfilled v, w') => (Fulfilled v, w')
    | (Rejected e, w') => onRejected e w'
    end.

(** [p.finally(onFinally)]: the outcome of [p] passes through unless the
    callback itself fails. *)
Definition finally_ {A : Type} (p : Promise A) (onFinally : Promise unit)
  : Promise A :=
  fun w =>
    match p w with
    | (r, w') =>
        match onFinally w' with
        | (Fulfilled _, w'') => (r, w'')
        | (Rejected e, w'') => (Rejected e, w'')
        end
    end.

(** [q.then(reaction)] on a promise [q] whose derived promise is dropped.
    No rejection handler is attached, so a rejected [q] runs nothing. *)
Definition detach {A : Type} (q : Settled A * Timing) (reaction : A -> Task)
  (w : World) : World :=
  match q with
  | (Fulfilled v, Early) => mkWorld (reaction v (trace w)) (later w)
  | (Fulfilled v, Late) => defer (reaction v) w
  | (Rejected _, _) => w
  end.

(** Runs a promise from an idle application and lets the event loop drain:
    the way it settled, and every call observed. *)
Definition runToCompletion {A : Type} (p : Promise A) : Settled A * list Event :=
  match p emptyWorld with
  | (r, w) => (r, fold_left (fun tr (t : Task) => t tr) (later w) (trace w))
  end.

(** Observations on a trace. *)
Definition isShow (ev : Event) : bool :=
  match ev with ShowModalLoading => true | _ => false end.

Definition isDismiss (ev : Event) : bool :=
  match ev with ModalDismiss => true | _ => false end.

Definition count (p : Event -> bool) (tr : list Event) : nat :=
  List.length (filter p tr).

(** A detached reaction whose body is one collaborator call: the call is
    observed; what it returns or throws settles a promise that was dropped. *)
Definition reaction {A : Type} (ev : Event) (outcome : Completion A) : Task :=
  fun tr => (tr ++ [ev])%list.

(** A function that returns a promise, unless it throws first. *)
Definition invoke {A : Type} (c : Completion (Promise A)) (w : World)
  : Completion (Settled A * World) :=
  match c with
  | Normal p => Normal (p w)
  | Throw e => Throw e
  end.

(* ================================================================= *)
(** ** The injected providers *)

(** [CoreMimetypeUtilsProvider]: pure functions of a file name or extension. *)
Record CoreMimetypeUtilsProvider : Type := mkMimetypeUtils {
  getFileExtension : string -> string;
  getExtensionType : string -> string;
  getMimeType : string -> string;
  canBeEmbedded : string -> bool
}.

(** [CoreFileProvider] *)
Record CoreFileProvider : Type := mkFileProvider {
  isAvailable : bool
}.

(** [CoreAppProvider] *)
Record CoreAppProvider : Type := mkAppProvider {
  isOnline : bool
}.

(** [CoreSitesProvider]; [fixPluginfileURL] is the method of the site that
    [getCurrentSite()] returns. *)
Record CoreSitesProvider : Type := mkSitesProvider {
  getCurrentSiteId : string;
  fixPluginfileURL : string -> string
}.

(** [CoreTextUtilsProvider] *)
Record CoreTextUtilsProvider : Type := mkTextUtils {
  concatenatePaths : string -> string -> string
}.

(** [CoreFilepoolProvider] *)
Record CoreFilepoolProvider : Type := mkFilepool {
  getPackageDirUrlByUrl : string -> string -> Settled string
}.

(** [CoreCourseHelperProvider] *)
Record CoreCourseHelperProvider : Type := mkCourseHelper {
  downloadModuleWithMainFileIfNeeded :
    CourseModule -> Z -> string -> Z -> list File -> Settled DownloadResult;
  downloadModuleAndOpenFile :
    CourseModule -> Z -> string -> Z -> list File -> Settled JsVal
}.

(** [AddonModResourceProvider], with its static [COMPONENT]. *)
Record AddonModResourceProvider : Type := mkResourceProvider {
  COMPONENT : string;
  logView : Z -> Settled JsVal * Timing
}.

(** [CoreCourseProvider] *)
Record CoreCourseProvider : Type := mkCourseProvider {
  checkModuleCompletion : Z -> JsVal -> Completion unit
}.

(* ================================================================= *)
(** ** The helper *)

Section AddonModResourceHelperProvider.

Variable courseProvider : CoreCourseProvider.
Variable resourceProvider : AddonModResourceProvider.
Variable courseHelper : CoreCourseHelperProvider.
Variable textUtils : CoreTextUtilsProvider.
Variable mimetypeUtils : CoreMimetypeUtilsProvider.
Variable fileProvider : CoreFileProvider.
Variable appProvider : CoreAppProvider.
Variable filepoolProvider : CoreFilepoolProvider.
Variable sitesProvider : CoreSitesProvider.

(** Try the best way. *)
Definition DISPLAY_AUTO : float := 0%float.
(** Display using object tag. *)
Definition DISPLAY_EMBED : float := 1%float.

(** The body of the callback of [getEmbeddedHtml]. *)
Definition embeddedHtmlOf (m : CourseModule) (result : DownloadResult)
  : Completion string :=
  file <- deref (firstContent m) "filename" ;;
  let ext := getFileExtension mimetypeUtils (filename file) in
  let type := getExtensionType mimetypeUtils ext in
  let mimeType := getMimeType mimetypeUtils ext in
  if type =? "image" then
    Normal ("<img src=" ++ dq ++ path result ++ dq ++ "></img>")
  else if (type =? "audio") || (type =? "video") then
    Normal ("<" ++ type ++ " controls title=" ++ dq ++ filename file ++ dq ++ dq
              ++ " src=" ++ dq ++ path result ++ dq ++ ">"
              ++ "<source src=" ++ dq ++ path result ++ dq
              ++ " type=" ++ dq ++ mimeType ++ dq ++ ">"
              ++ "</" ++ type ++ ">")
  else
    Normal EmptyString.

Definition getEmbeddedHtml (m : CourseModule) : Promise string :=
  then_
    (call
       (DownloadModuleWithMainFileIfNeeded
          (id m) (course m) (COMPONENT resourceProvider) (id m) (contents m))
       (downloadModuleWithMainFileIfNeeded courseHelper
          m (course m) (COMPONENT resourceProvider) (id m) (contents m)))
    (fun result => ofCompletion (embeddedHtmlOf m result)).

(** The local [mainFilePath] of [getIframeSrc]. *)
Definition mainFilePath (mainFile : File) : string :=
  if negb (filepath mainFile =? "/") then
    substr 1 (filepath mainFile) ++ filename mainFile
  else
    filename mainFile.

Definition getIframeSrc (m : CourseModule) : Completion (Promise string) :=
  if noContents m then
    Normal (Promise_reject VNull)
  else
    mainFile <- deref (firstContent m) "filename" ;;
    Normal
      (catch_
         (then_
            (call
               (GetPackageDirUrlByUrl (getCurrentSiteId sitesProvider) (url m))
               (getPackageDirUrlByUrl filepoolProvider
                  (getCurrentSiteId sitesProvider) (url m)))
            (fun dirPath =>
               Promise_resolve
                 (concatenatePaths textUtils dirPath (mainFilePath mainFile))))
         (fun _ =>
            if isOnline appProvider && truthy (fileurl mainFile) then
              match fileurl mainFile with
              | Some fileurl => Promise_resolve (fixPluginfileURL sitesProvider fileurl)
              | None => Promise_reject VNull
              end
            else
              Promise_reject VNull)).

Definition isDisplayedEmbedded (m : CourseModule) (display : float)
  : Completion bool :=
  if noContents m || negb (isAvailable fileProvider) then
    Normal false
  else
    file <- deref (firstContent m) "filename" ;;
    let ext := getFileExtension mimetypeUtils (filename file) in
    Normal ((PrimFloat.eqb display DISPLAY_EMBED || PrimFloat.eqb display DISPLAY_AUTO)
            && canBeEmbedded mimetypeUtils ext).

Definition isDisplayedInIframe (m : CourseModule) : Completion bool :=
  if noContents m || negb (isAvailable fileProvider) then
    Normal false
  else
    file <- deref (firstContent m) "filename" ;;
    let ext := getFileExtension mimetypeUtils (filename file) in
    let mimetype := getMimeType mimetypeUtils ext in
    Normal (mimetype =? "text/html").

Definition openModuleFile (m : CourseModule) (courseId : Z) : Promise JsVal :=
  fun w =>
    let modal := log ShowModalLoading w in
    finally_
      (catch_
         (then_
            (call
               (DownloadModuleAndOpenFile
                  (id m) courseId (COMPONENT resourceProvider) (id m) (contents m))
               (downloadModuleAndOpenFile courseHelper
                  m courseId (COMPONENT resourceProvider) (id m) (contents m)))
            (fun _ w1 =>
               (Fulfilled VUndefined,
                detach (logView resourceProvider (instance m))
                  (fun _ =>
                     reaction
                       (CheckModuleCompletion courseId (completionstatus m))
                       (checkModuleCompletion courseProvider
                          courseId (completionstatus m)))
                  (log (LogView (instance m)) w1))))
         (fun error w1 =>
            (Fulfilled VUndefined,
             log (ShowErrorModalDefault error
                    "addon.mod_resource.errorwhileloadingthecontent" true) w1)))
      (fun w1 => (Fulfilled tt, log ModalDismiss w1))
      modal.

End AddonModResourceHelperProvider.

(** The way a promise-returning function settled, when it returned one. *)
Definition settledOf {A : Type} (c : Completion (Settled A * World))
  : option (Settled A) :=
  match c with
  | Normal (r, _) => Some r
  | Throw _ => None
  end.

Definition resultOf {A : Type} (p : Promise A) : Settled A :=
  fst (runToCompletion p).

Definition eventsOf {A : Type} (p : Promise A) : list Event :=
  snd (runToCompletion p).

(** The directory lookup that [getIframeSrc] makes for [m], and the world
    once that call has been made. *)
Definition packageDirLookup (filepoolProvider : CoreFilepoolProvider)
  (sitesProvider : CoreSitesProvider) (m : CourseModule) : Settled string :=
  getPackageDirUrlByUrl filepoolProvider (getCurrentSiteId sitesProvider) (url m).

Definition lookedUp (sitesProvider : CoreSitesProvider) (m : CourseModule)
  (w : World) : World :=
  log (GetPackageDirUrlByUrl (getCurrentSiteId sitesProvider) (url m)) w.

(** The download that [getEmbeddedHtml] asks for, and the world once that
    call has been made. *)
Definition mainFileDownload (resourceProvider : AddonModResourceProvider)
  (courseHelper : CoreCourseHelperProvider) (m : CourseModule)
  : Settled DownloadResult :=
  downloadModuleWithMainFileIfNeeded courseHelper
    m (course m) (COMPONENT resourceProvider) (id m) (contents m).

Definition downloaded (resourceProvider : AddonModResourceProvider)
  (m : CourseModule) (w : World) : World :=
  log (DownloadModuleWithMainFileIfNeeded
         (id m) (course m) (COMPONENT resourceProvider) (id m) (contents m)) w.

(** The download-and-open step of [openModuleFile]: the call, and the way it
    settles. *)
Definition openAttempt (resourceProvider : AddonModResourceProvider)
  (m : CourseModule) (courseId : Z) : Event :=
  DownloadModuleAndOpenFile
    (id m) courseId (COMPONENT resourceProvider) (id m) (contents m).

Definition openOutcome (resourceProvider : AddonModResourceProvider)
  (courseHelper : CoreCourseHelperProvider) (m : CourseModule) (courseId : Z)
  : Settled JsVal :=
  downloadModuleAndOpenFile courseHelper
    m courseId (COMPONENT resourceProvider) (id m) (contents m).

(** The conditions under which a resource is shown embedded: the display
    mode is automatic (0) or forced embed (1), the extension of the main file
    can be embedded, and local file storage is available.  The display mode
    is compared as a number: negative zero is zero, and NaN is no mode. *)
Definition embedConditions (mimetypeUtils : CoreMimetypeUtilsProvider)
  (fileProvider : CoreFileProvider) (m : CourseModule) (display : float) : Prop :=
  (PrimFloat.eqb display 0%float = true \/ PrimFloat.eqb display 1%float = true)
  /\ (exists file, firstContent m = Some file
        /\ canBeEmbedded mimetypeUtils
             (getFileExtension mimetypeUtils (filename file)) = true)
  /\ isAvailable fileProvider = true.

(** Modelled from the spec: [CoreTextUtilsProvider.concatenatePaths], whose
    source file (providers/utils/text) is not among the files at hand.  The
    spec has the cache directory and the relative path concatenated, and
    applies the rule literally: no separator is inserted between the two. *)
Definition concatenatePaths_spec (leftPath rightPath : string) : string :=
  leftPath ++ rightPath.

Definition textUtils_spec : CoreTextUtilsProvider :=
  mkTextUtils concatenatePaths_spec.

(* ================================================================= *)
(** ** Sample collaborators

    Instances of the providers for worked scenarios.  The classification
    tables of the application are not part of the helper; the sample knows a
    handful of extensions. *)

Definition isDot (c : ascii) : bool := Ascii.eqb c "."%char.

(** The text after the last dot of a name, if it has a dot. *)
Fixpoint afterLastDot (s : string) : option string :=
  match s with
  | EmptyString => None
  | String c rest =>
      match afterLastDot rest with
      | Some e => Some e
      | None => if isDot c then Some rest else None
      end
  end.

Definition sampleMimetypeUtils : CoreMimetypeUtilsProvider :=
  mkMimetypeUtils
    (fun name => match afterLastDot name with Some e => e | None => EmptyString end)
    (fun ext =>
       if ext =? "png" then "image"
       else if ext =? "mp3" then "audio"
       else if ext =? "mp4" then "video"
       else "other")
    (fun ext =>
       if ext =? "png" then "image/png"
       else if ext =? "mp3" then "audio/mp3"
       else if ext =? "mp4" then "video/mp4"
       else if ext =? "html" then "text/html"
       else if ext =? "pdf" then "application/pdf"
       else "application/octet-stream")
    (fun ext => (ext =? "png") || (ext =? "mp3") || (ext =? "mp4")).

Definition sampleSites : CoreSitesProvider :=
  mkSitesProvider "site1" (fun fileurl => fileurl ++ "?token=abc").

Definition sampleFile (name subpath : string) : File :=
  mkFile name subpath (Some ("https://school.example/pluginfile.php/42" ++ subpath ++ name)).

Definition sampleModule (files : list File) : CourseModule :=
  mkCourseModule 42 7 5 "https://school.example/mod/resource/view.php?id=42"
    files (VNumber 1).

(** A filepool that holds a copy of every package under [dir], or of none. *)
Definition filepoolWith (dir : option string) : CoreFilepoolProvider :=
  mkFilepool (fun _ _ =>
    match dir with
    | Some d => Fulfilled d
    | None => Rejected (VError "Error" "no package directory")
    end).

(** A course helper whose downloads all succeed with the local path [p], or
    all fail with [reason]. *)
Definition courseHelperOk (p : string) : CoreCourseHelperProvider :=
  mkCourseHelper
    (fun _ _ _ _ _ => Fulfilled (mkDownloadResult p))
    (fun _ _ _ _ _ => Fulfilled VUndefined).

Definition courseHelperFailing (reason : JsVal) : CoreCourseHelperProvider :=
  mkCourseHelper
    (fun _ _ _ _ _ => Rejected reason)
    (fun _ _ _ _ _ => Rejected reason).

Definition sampleResource (q : Settled JsVal * Timing) : AddonModResourceProvider :=
  mkResourceProvider "mmaModResource" (fun _ => q).

Definition sampleCourse : CoreCourseProvider :=
  mkCourseProvider (fun _ _ => Normal tt).

(** Further observations on a trace. *)
Definition isOpenAttempt (ev : Event) : bool :=
  match ev with DownloadModuleAndOpenFile _ _ _ _ _ => true | _ => false end.

Definition isLogView (ev : Event) : bool :=
  match ev with LogView _ => true | _ => false end.

Definition isCheckCompletion (ev : Event) : bool :=
  match ev with CheckModuleCompletion _ _ => true | _ => false end.

Definition isErrorModal (ev : Event) : bool :=
  match ev with ShowErrorModalDefault _ _ _ => true | _ => false end.


(** [a] happens before [b] in a trace. *)
Definition happensBefore (a b : Event) (tr : list Event) : Prop :=
  exists l1 l2 l3 : list Event, tr = (l1 ++ a :: l2 ++ b :: l3)%list.

(** A classification utility is coherent when every extension it reports
    embeddable is one it classifies as image, audio or video: the
    assumption written in the last comment of [getEmbeddedHtml]. *)
Definition embeddableIsMedia (mimetypeUtils : CoreMimetypeUtilsProvider) : Prop :=
  forall ext,
    canBeEmbedded mimetypeUtils ext = true ->
    getExtensionType mimetypeUtils ext = "image"
    \/ getExtensionType mimetypeUtils ext = "audio"
    \/ getExtensionType mimetypeUtils ext = "video".

(* ================================================================= *)
(** ** Basic facts about the embedding *)

Lemma contents_nil (m : CourseModule) :
  contents m = [] -> noContents m = true /\ firstContent m = None.
Proof.
  unfold noContents, firstContent; intros ->; split; reflexivity.
Qed.

Lemma contents_cons (m : CourseModule) (file : File) (rest : list File) :
  contents m = file :: rest -> noContents m = false /\ firstContent m = Some file.
Proof.
  unfold noContents, firstContent; intros ->; split; reflexivity.
Qed.

Lemma truthy_some (u : string) :
  u <> EmptyString -> truthy (Some u) = true.
Proof.
  destruct u; [intros H; exfalso; apply H | intros _]; reflexivity.
Qed.

(** For a sub-path that starts with the separator, the relative path is the
    rest of the sub-path followed by the file name; the root is the case of
    an empty rest. *)
Lemma mainFilePath_separator (mainFile : File) (sub : string) :
  filepath mainFile = String "/" sub ->
  mainFilePath mainFile = sub ++ filename mainFile.
Proof.
  unfold mainFilePath; intros ->.
  destruct sub as [|c sub]; reflexivity.
Qed.

Lemma mainFilePath_root (mainFile : File) :
  filepath mainFile = "/" -> mainFilePath mainFile = filename mainFile.
Proof.
  intros H; rewrite (mainFilePath_separator mainFile EmptyString H); reflexivity.
Qed.

(* ================================================================= *)
(** ** Classification *)

Section Classification.

Variable mimetypeUtils : CoreMimetypeUtilsProvider.
Variable fileProvider : CoreFileProvider.

(** The classification functions return a boolean: they never throw. *)
Lemma isDisplayedEmbedded_total (m : CourseModule) (display : float) :
  exists b, isDisplayedEmbedded mimetypeUtils fileProvider m display = Normal b.
Proof.
  unfold isDisplayedEmbedded, noContents, firstContent.
  destruct (contents m) as [|file rest]; simpl.
  - exists false; reflexivity.
  - destruct (isAvailable fileProvider); simpl; eexists; reflexivity.
Qed.

Lemma isDisplayedInIframe_total (m : CourseModule) :
  exists b, isDisplayedInIframe mimetypeUtils fileProvider m = Normal b.
Proof.
  unfold isDisplayedInIframe, noContents, firstContent.
  destruct (contents m) as [|file rest]; simpl.
  - exists false; reflexivity.
  - destruct (isAvailable fileProvider); simpl; eexists; reflexivity.
Qed.

(** C1. [isDisplayedEmbedded] answers true exactly when the display mode is
    automatic (0) or forced embed (1), the classification utility reports the
    extension of the main file embeddable, and local file storage is
    available; in every other case, any other display mode included, it
    answers false. *)
Theorem isDisplayedEmbedded_iff (m : CourseModule) (display : float) :
  (isDisplayedEmbedded mimetypeUtils fileProvider m display = Normal true
   <-> embedConditions mimetypeUtils fileProvider m display)
  /\ (~ embedConditions mimetypeUtils fileProvider m display
      <-> isDisplayedEmbedded mimetypeUtils fileProvider m display = Normal false).
Proof.
  assert (Hiff : isDisplayedEmbedded mimetypeUtils fileProvider m display = Normal true
                 <-> embedConditions mimetypeUtils fileProvider m display).
  { unfold isDisplayedEmbedded, embedConditions, noContents, firstContent,
      DISPLAY_EMBED, DISPLAY_AUTO.
    destruct (contents m) as [|file rest]; simpl.
    - split; [discriminate | intros (_ & (f & Hf & _) & _); discriminate].
    - destruct (isAvailable fileProvider); simpl.
      + destruct (PrimFloat.eqb display 1) eqn:E1;
          destruct (PrimFloat.eqb display 0) eqn:E0; simpl;
          destruct (canBeEmbedded mimetypeUtils
                      (getFileExtension mimetypeUtils (filename file))) eqn:Ec;
          split;
          try discriminate;
          try (intros _; repeat split; auto; exists file; auto);
          try (intros (_ & (f & Hf & Hc) & _); injection Hf as <-; congruence);
          try (intros ([H | H] & _); discriminate).
      + split; [discriminate | intros (_ & _ & H); discriminate]. }
  split; [exact Hiff |].
  destruct (isDisplayedEmbedded_total m display) as [[|] Hb]; rewrite Hb in *.
  - split; [intros Hn; exfalso; apply Hn, Hiff; reflexivity | discriminate].
  - split; [reflexivity | intros _ Hc; apply Hiff in Hc; discriminate].
Qed.

(** C2. With at least one content file, [isDisplayedInIframe] answers true
    exactly when the MIME type of the extension of the main file is
    [text/html] and local file storage is available, and false otherwise.
    The function receives the module alone: no display mode reaches it. *)
Theorem isDisplayedInIframe_iff (m : CourseModule) (file : File) (rest : list File) :
  contents m = file :: rest ->
  (isDisplayedInIframe mimetypeUtils fileProvider m = Normal true
   <-> getMimeType mimetypeUtils (getFileExtension mimetypeUtils (filename file))
       = "text/html"
       /\ isAvailable fileProvider = true)
  /\ (isDisplayedInIframe mimetypeUtils fileProvider m = Normal false
      <-> ~ (getMimeType mimetypeUtils (getFileExtension mimetypeUtils (filename file))
             = "text/html"
             /\ isAvailable fileProvider = true)).
Proof.
  intros Hc.
  unfold isDisplayedInIframe, noContents, firstContent; rewrite Hc; simpl.
  destruct (isAvailable fileProvider); simpl.
  - destruct (String.eqb_spec
                (getMimeType mimetypeUtils (getFileExtension mimetypeUtils (filename file)))
                "text/html") as [He | Hne].
    + split; split.
      * intros _; split; [exact He | reflexivity].
      * reflexivity.
      * discriminate.
      * intros Hn; exfalso; apply Hn; split; [exact He | reflexivity].
    + split; split.
      * discriminate.
      * intros (He & _); contradiction.
      * intros _ (He & _); contradiction.
      * reflexivity.
  - split; split.
    + discriminate.
    + intros (_ & H); discriminate.
    + intros _ (_ & H); discriminate.
    + reflexivity.
Qed.

End Classification.
(* ================================================================= *)
(** ** The source of the iframe *)

Section IframeSrc.

Variable textUtils : CoreTextUtilsProvider.
Variable appProvider : CoreAppProvider.
Variable filepoolProvider : CoreFilepoolProvider.
Variable sitesProvider : CoreSitesProvider.

Lemma getIframeSrc_empty (m : CourseModule) (w : World) :
  contents m = [] ->
  invoke (getIframeSrc textUtils appProvider filepoolProvider sitesProvider m) w
  = Normal (Rejected VNull, w).
Proof.
  intros Hc; unfold getIframeSrc.
  destruct (contents_nil m Hc) as [-> _]; reflexivity.
Qed.

Lemma getIframeSrc_cached (m : CourseModule) (mainFile : File) (rest : list File)
  (w : World) (dirPath : string) :
  contents m = mainFile :: rest ->
  packageDirLookup filepoolProvider sitesProvider m = Fulfilled dirPath ->
  invoke (getIframeSrc textUtils appProvider filepoolProvider sitesProvider m) w
  = Normal (Fulfilled (concatenatePaths textUtils dirPath (mainFilePath mainFile)),
            lookedUp sitesProvider m w).
Proof.
  intros Hc Hl; unfold getIframeSrc.
  destruct (contents_cons m mainFile rest Hc) as [-> ->]; simpl.
  unfold catch_, then_, call, Promise_resolve.
  unfold packageDirLookup in Hl; rewrite Hl; reflexivity.
Qed.

Lemma getIframeSrc_remote (m : CourseModule) (mainFile : File) (rest : list File)
  (w : World) (reason : JsVal) (remote : string) :
  contents m = mainFile :: rest ->
  packageDirLookup filepoolProvider sitesProvider m = Rejected reason ->
  isOnline appProvider = true ->
  fileurl mainFile = Some remote ->
  remote <> EmptyString ->
  invoke (getIframeSrc textUtils appProvider filepoolProvider sitesProvider m) w
  = Normal (Fulfilled (fixPluginfileURL sitesProvider remote), lookedUp sitesProvider m w).
Proof.
  intros Hc Hl Ho Hu Hne; unfold getIframeSrc.
  destruct (contents_cons m mainFile rest Hc) as [-> ->]; simpl.
  unfold catch_, then_, call.
  unfold packageDirLookup in Hl; rewrite Hl, Ho, Hu, (truthy_some remote Hne); reflexivity.
Qed.

Lemma getIframeSrc_no_fallback (m : CourseModule) (mainFile : File)
  (rest : list File) (w : World) (reason : JsVal) :
  contents m = mainFile :: rest ->
  packageDirLookup filepoolProvider sitesProvider m = Rejected reason ->
  isOnline appProvider = false \/ truthy (fileurl mainFile) = false ->
  invoke (getIframeSrc textUtils appProvider filepoolProvider sitesProvider m) w
  = Normal (Rejected VNull, lookedUp sitesProvider m w).
Proof.
  intros Hc Hl Hoff; unfold getIframeSrc.
  destruct (contents_cons m mainFile rest Hc) as [-> ->]; simpl.
  unfold catch_, then_, call.
  unfold packageDirLookup in Hl; rewrite Hl.
  destruct Hoff as [-> | ->]; [| rewrite andb_false_r]; reflexivity.
Qed.

(** C3. With at least one content file, [getIframeSrc] is a two-tier
    fallback.  When the lookup of the package directory succeeds, it resolves
    with the directory concatenated with the relative path of the main file:
    the file name when the sub-path is the root, and otherwise the sub-path
    without its leading separator followed by the file name.  When the lookup
    fails, the device is online and the main file has a remote URL, it
    resolves with that URL rewritten by the site.  When the lookup fails and
    the device is offline or there is no remote URL, it rejects. *)
Theorem getIframeSrc_two_tier (m : CourseModule) (mainFile : File)
  (rest : list File) (w : World) :
  contents m = mainFile :: rest ->
  (forall dirPath,
      packageDirLookup filepoolProvider sitesProvider m = Fulfilled dirPath ->
      invoke (getIframeSrc textUtils appProvider filepoolProvider sitesProvider m) w
      = Normal (Fulfilled (concatenatePaths textUtils dirPath (mainFilePath mainFile)),
                lookedUp sitesProvider m w)
      /\ (filepath mainFile = "/" -> mainFilePath mainFile = filename mainFile)
      /\ (forall sub,
             filepath mainFile = String "/" sub ->
             mainFilePath mainFile = sub ++ filename mainFile))
  /\ (forall reason remote,
         packageDirLookup filepoolProvider sitesProvider m = Rejected reason ->
         isOnline appProvider = true ->
         fileurl mainFile = Some remote ->
         remote <> EmptyString ->
         invoke (getIframeSrc textUtils appProvider filepoolProvider sitesProvider m) w
         = Normal (Fulfilled (fixPluginfileURL sitesProvider remote), lookedUp sitesProvider m w))
  /\ (forall reason,
         packageDirLookup filepoolProvider sitesProvider m = Rejected reason ->
         isOnline appProvider = false \/ truthy (fileurl mainFile) = false ->
         invoke (getIframeSrc textUtils appProvider filepoolProvider sitesProvider m) w
         = Normal (Rejected VNull, lookedUp sitesProvider m w)).
Proof.
  intros Hc; split; [| split].
  - intros dirPath Hl; split; [| split].
    + eapply getIframeSrc_cached; eassumption.
    + apply mainFilePath_root.
    + apply mainFilePath_separator.
  - intros reason remote Hl Ho Hu Hne.
    eapply getIframeSrc_remote; eassumption.
  - intros reason Hl Hoff.
    eapply getIframeSrc_no_fallback; eassumption.
Qed.

(** C9. Both ways in which [getIframeSrc] fails reject with the bare value
    [null]: for a module without content files, and for a module whose
    package directory is not available while the device is offline or the
    main file has no usable remote URL.  The reason of the failed lookup is
    dropped, so the two rejections are the same value. *)
Theorem getIframeSrc_rejects_null (m1 m2 : CourseModule) (mainFile : File)
  (rest : list File) (w1 w2 : World) (reason : JsVal) :
  contents m1 = [] ->
  contents m2 = mainFile :: rest ->
  packageDirLookup filepoolProvider sitesProvider m2 = Rejected reason ->
  isOnline appProvider = false \/ truthy (fileurl mainFile) = false ->
  settledOf
    (invoke (getIframeSrc textUtils appProvider filepoolProvider sitesProvider m1) w1)
  = Some (Rejected VNull)
  /\ settledOf
       (invoke (getIframeSrc textUtils appProvider filepoolProvider sitesProvider m2) w2)
     = Some (Rejected VNull)
  /\ settledOf
       (invoke (getIframeSrc textUtils appProvider filepoolProvider sitesProvider m1) w1)
     = settledOf
         (invoke (getIframeSrc textUtils appProvider filepoolProvider sitesProvider m2) w2).
Proof.
  intros H1 H2 Hl Hoff.
  rewrite (getIframeSrc_empty m1 w1 H1).
  rewrite (getIframeSrc_no_fallback m2 mainFile rest w2 reason H2 Hl Hoff).
  repeat split.
Qed.

End IframeSrc.

(** C8. With the package directory [/cache/42], a main file [index.html]
    whose sub-path is the root, [getIframeSrc] resolves with
    [/cache/42index.html]: directory and relative path are put together with
    no separator between them. *)
Theorem getIframeSrc_cache42_index (appProvider : CoreAppProvider)
  (filepoolProvider : CoreFilepoolProvider) (sitesProvider : CoreSitesProvider)
  (m : CourseModule) (mainFile : File) (w : World) :
  contents m = [mainFile] ->
  filename mainFile = "index.html" ->
  filepath mainFile = "/" ->
  packageDirLookup filepoolProvider sitesProvider m = Fulfilled "/cache/42" ->
  settledOf
    (invoke (getIframeSrc textUtils_spec appProvider filepoolProvider sitesProvider m) w)
  = Some (Fulfilled "/cache/42index.html").
Proof.
  intros Hc Hn Hp Hl.
  rewrite (getIframeSrc_cached textUtils_spec appProvider filepoolProvider
             sitesProvider m mainFile [] w "/cache/42" Hc Hl).
  rewrite (mainFilePath_root mainFile Hp), Hn; reflexivity.
Qed.

(* ================================================================= *)
(** ** Modules without content files *)

Section NoContents.

Variable textUtils : CoreTextUtilsProvider.
Variable mimetypeUtils : CoreMimetypeUtilsProvider.
Variable fileProvider : CoreFileProvider.
Variable appProvider : CoreAppProvider.
Variable filepoolProvider : CoreFilepoolProvider.
Variable sitesProvider : CoreSitesProvider.

(** C6. For a module whose list of content files is empty,
    [isDisplayedEmbedded] and [isDisplayedInIframe] return false and
    [getIframeSrc] returns a promise that is rejected at once, before any
    collaborator is called; none of the three throws. *)
Theorem empty_contents_not_displayable (m : CourseModule) (display : float)
  (w : World) :
  contents m = [] ->
  isDisplayedEmbedded mimetypeUtils fileProvider m display = Normal false
  /\ isDisplayedInIframe mimetypeUtils fileProvider m = Normal false
  /\ invoke (getIframeSrc textUtils appProvider filepoolProvider sitesProvider m) w
     = Normal (Rejected VNull, w).
Proof.
  intros Hc; split; [| split].
  - unfold isDisplayedEmbedded.
    destruct (contents_nil m Hc) as [-> _]; reflexivity.
  - unfold isDisplayedInIframe.
    destruct (contents_nil m Hc) as [-> _]; reflexivity.
  - apply getIframeSrc_empty; exact Hc.
Qed.

End NoContents.

(* ================================================================= *)
(** ** The embedded markup *)

Section EmbeddedHtml.

Variable resourceProvider : AddonModResourceProvider.
Variable courseHelper : CoreCourseHelperProvider.
Variable mimetypeUtils : CoreMimetypeUtilsProvider.

Lemma getEmbeddedHtml_downloaded (m : CourseModule) (result : DownloadResult)
  (w : World) :
  mainFileDownload resourceProvider courseHelper m = Fulfilled result ->
  getEmbeddedHtml resourceProvider courseHelper mimetypeUtils m w
  = ofCompletion (embeddedHtmlOf mimetypeUtils m result)
      (downloaded resourceProvider m w).
Proof.
  intros Hd; unfold getEmbeddedHtml, then_, call.
  unfold mainFileDownload in Hd; rewrite Hd; reflexivity.
Qed.

Lemma getEmbeddedHtml_trace (m : CourseModule) (w : World) :
  snd (getEmbeddedHtml resourceProvider courseHelper mimetypeUtils m w)
  = downloaded resourceProvider m w.
Proof.
  unfold getEmbeddedHtml, then_, call.
  destruct (downloadModuleWithMainFileIfNeeded courseHelper m (course m)
              (COMPONENT resourceProvider) (id m) (contents m)) as [result | e];
    [| reflexivity].
  destruct (embeddedHtmlOf mimetypeUtils m result); reflexivity.
Qed.

(** C7. When the download succeeds and the main file is classified audio or
    video, [getEmbeddedHtml] resolves with an element named after the
    category that carries [controls] and a [title] holding the file name,
    and that encloses a [source] element whose [src] is the local path of
    the download and whose [type] is the MIME type of the file. *)
Theorem getEmbeddedHtml_audio_video (m : CourseModule) (file : File)
  (rest : list File) (result : DownloadResult) (w : World) (type : string) :
  contents m = file :: rest ->
  mainFileDownload resourceProvider courseHelper m = Fulfilled result ->
  getExtensionType mimetypeUtils (getFileExtension mimetypeUtils (filename file))
  = type ->
  type = "audio" \/ type = "video" ->
  getEmbeddedHtml resourceProvider courseHelper mimetypeUtils m w
  = (Fulfilled
       ("<" ++ type ++ " controls title=" ++ dq ++ filename file ++ dq
          ++ dq ++ " src=" ++ dq ++ path result ++ dq ++ ">"
          ++ "<source src=" ++ dq ++ path result ++ dq ++ " type=" ++ dq
          ++ getMimeType mimetypeUtils
               (getFileExtension mimetypeUtils (filename file))
          ++ dq ++ ">"
          ++ "</" ++ type ++ ">"),
     downloaded resourceProvider m w).
Proof.
  intros Hc Hd Ht Hav.
  rewrite (getEmbeddedHtml_downloaded m result w Hd).
  unfold embeddedHtmlOf.
  destruct (contents_cons m file rest Hc) as [_ ->]; simpl.
  rewrite Ht.
  destruct Hav as [-> | ->]; reflexivity.
Qed.

(** C10. [getEmbeddedHtml] has no guard on the list of content files: for a
    module without content files the download is requested all the same,
    and when it succeeds the read of the first entry fails, so the promise
    is rejected; it is never fulfilled with markup, the empty string
    included. *)
Theorem getEmbeddedHtml_empty_contents (m : CourseModule) (w : World) :
  contents m = [] ->
  snd (getEmbeddedHtml resourceProvider courseHelper mimetypeUtils m w)
  = log (DownloadModuleWithMainFileIfNeeded
           (id m) (course m) (COMPONENT resourceProvider) (id m) []) w
  /\ (forall result,
         mainFileDownload resourceProvider courseHelper m = Fulfilled result ->
         fst (getEmbeddedHtml resourceProvider courseHelper mimetypeUtils m w)
         = Rejected (TypeError_undefined "filename"))
  /\ (forall markup,
         fst (getEmbeddedHtml resourceProvider courseHelper mimetypeUtils m w)
         <> Fulfilled markup).
Proof.
  intros Hc.
  assert (He : forall result,
             embeddedHtmlOf mimetypeUtils m result
             = Throw (TypeError_undefined "filename")).
  { intros result; unfold embeddedHtmlOf.
    destruct (contents_nil m Hc) as [_ ->]; reflexivity. }
  split; [| split].
  - rewrite getEmbeddedHtml_trace; unfold downloaded; rewrite Hc; reflexivity.
  - intros result Hd.
    rewrite (getEmbeddedHtml_downloaded m result w Hd), He; reflexivity.
  - intros markup.
    destruct (mainFileDownload resourceProvider courseHelper m) as [result | e] eqn:Hd.
    + rewrite (getEmbeddedHtml_downloaded m result w Hd), He; discriminate.
    + unfold getEmbeddedHtml, then_, call.
      unfold mainFileDownload in Hd; rewrite Hd; discriminate.
Qed.

End EmbeddedHtml.

(* ================================================================= *)
(** ** Opening the file of a resource *)

(** Every run of [openModuleFile], by the way the download-and-open step and
    the view log settle. *)
Lemma openModuleFile_run (courseProvider : CoreCourseProvider)
  (resourceProvider : AddonModResourceProvider)
  (courseHelper : CoreCourseHelperProvider) (m : CourseModule) (courseId : Z) :
  runToCompletion
    (openModuleFile courseProvider resourceProvider courseHelper m courseId)
  = (Fulfilled VUndefined,
     ShowModalLoading
       :: openAttempt resourceProvider m courseId
       :: match openOutcome resourceProvider courseHelper m courseId with
          | Fulfilled _ =>
              LogView (instance m)
                :: match logView resourceProvider (instance m) with
                   | (Fulfilled _, Early) =>
                       [CheckModuleCompletion courseId (completionstatus m);
                        ModalDismiss]
                   | (Fulfilled _, Late) =>
                       [ModalDismiss;
                        CheckModuleCompletion courseId (completionstatus m)]
                   | (Rejected _, _) => [ModalDismiss]
                   end
          | Rejected error =>
              [ShowErrorModalDefault error
                 "addon.mod_resource.errorwhileloadingthecontent" true;
               ModalDismiss]
          end).
Proof.
  unfold runToCompletion, openModuleFile, finally_, catch_, then_, call,
    openOutcome, openAttempt.
  destruct (downloadModuleAndOpenFile courseHelper m courseId
              (COMPONENT resourceProvider) (id m) (contents m)) as [v | error];
    simpl; [| reflexivity].
  destruct (logView resourceProvider (instance m)) as [[v' | e'] [|]];
    reflexivity.
Qed.

Section OpenModuleFile.

Variable courseProvider : CoreCourseProvider.
Variable resourceProvider : AddonModResourceProvider.
Variable courseHelper : CoreCourseHelperProvider.

(** C4. In every run of [openModuleFile] the loading modal is shown once,
    first of all and so before the download-and-open step is attempted, and
    dismissed once, after the handler of the way that step settled has run:
    the view log on success, the error modal on failure. *)
Theorem openModuleFile_modal_once (m : CourseModule) (courseId : Z) :
  count isShow
    (eventsOf (openModuleFile courseProvider resourceProvider courseHelper m courseId))
  = 1%nat
  /\ count isDismiss
       (eventsOf (openModuleFile courseProvider resourceProvider courseHelper m courseId))
     = 1%nat
  /\ exists settled after : list Event,
       eventsOf (openModuleFile courseProvider resourceProvider courseHelper m courseId)
       = (ShowModalLoading
            :: openAttempt resourceProvider m courseId
            :: settled ++ ModalDismiss :: after)%list
       /\ (forall value,
              openOutcome resourceProvider courseHelper m courseId = Fulfilled value ->
              In (LogView (instance m)) settled)
       /\ (forall error,
              openOutcome resourceProvider courseHelper m courseId = Rejected error ->
              In (ShowErrorModalDefault error
                    "addon.mod_resource.errorwhileloadingthecontent" true) settled).
Proof.
  unfold eventsOf; rewrite openModuleFile_run; unfold openAttempt; simpl.
  destruct (openOutcome resourceProvider courseHelper m courseId) as [v | error].
  - destruct (logView resourceProvider (instance m)) as [[v' | e'] [|]];
      (split; [reflexivity | split; [reflexivity |]]).
    + exists [LogView (instance m);
              CheckModuleCompletion courseId (completionstatus m)], [].
      split; [reflexivity | split; [intros; left; reflexivity | discriminate]].
    + exists [LogView (instance m)],
             [CheckModuleCompletion courseId (completionstatus m)].
      split; [reflexivity | split; [intros; left; reflexivity | discriminate]].
    + exists [LogView (instance m)], [].
      split; [reflexivity | split; [intros; left; reflexivity | discriminate]].
    + exists [LogView (instance m)], [].
      split; [reflexivity | split; [intros; left; reflexivity | discriminate]].
  - split; [reflexivity | split; [reflexivity |]].
    exists [ShowErrorModalDefault error
              "addon.mod_resource.errorwhileloadingthecontent" true], [].
    split; [reflexivity | split; [discriminate |]].
    intros error' [= <-]; left; reflexivity.
Qed.

(** C5. [openModuleFile] always resolves, with no value.  When the
    download-and-open step fails, the failure is shown through the default
    error modal, with the message key
    [addon.mod_resource.errorwhileloadingthecontent] to be translated, and
    the promise resolves all the same.  Whatever the view log and the
    completion check do, the promise resolves the same way, and when the
    download-and-open step succeeded no error is shown. *)
Theorem openModuleFile_always_resolves (m : CourseModule) (courseId : Z) :
  resultOf (openModuleFile courseProvider resourceProvider courseHelper m courseId)
  = Fulfilled VUndefined
  /\ (forall error,
         openOutcome resourceProvider courseHelper m courseId = Rejected error ->
         In (ShowErrorModalDefault error
               "addon.mod_resource.errorwhileloadingthecontent" true)
           (eventsOf
              (openModuleFile courseProvider resourceProvider courseHelper m courseId)))
  /\ (forall viewLog completionCheck,
         resultOf
           (openModuleFile
              (mkCourseProvider completionCheck)
              (mkResourceProvider (COMPONENT resourceProvider) viewLog)
              courseHelper m courseId)
         = resultOf
             (openModuleFile courseProvider resourceProvider courseHelper m courseId))
  /\ (forall value,
         openOutcome resourceProvider courseHelper m courseId = Fulfilled value ->
         forall error key needsTranslate,
           ~ In (ShowErrorModalDefault error key needsTranslate)
               (eventsOf
                  (openModuleFile courseProvider resourceProvider courseHelper
                     m courseId))).
Proof.
  unfold resultOf, eventsOf.
  split; [| split; [| split]].
  - rewrite openModuleFile_run; reflexivity.
  - intros error He; rewrite openModuleFile_run, He; simpl.
    right; right; left; reflexivity.
  - intros viewLog completionCheck; rewrite !openModuleFile_run; reflexivity.
  - intros value Hv error key needsTranslate.
    rewrite openModuleFile_run, Hv; simpl.
    destruct (logView resourceProvider (instance m)) as [[v' | e'] [|]]; simpl;
      unfold openAttempt; intuition discriminate.
Qed.

End OpenModuleFile.

(* ================================================================= *)
(** ** Worked scenarios *)

(** Display modes other than 0 and 1 never embed, whatever the file. *)
Example isDisplayedEmbedded_modes :
  let embedded display :=
    isDisplayedEmbedded sampleMimetypeUtils (mkFileProvider true)
      (sampleModule [sampleFile "song.mp3" "/"]) display in
  embedded 0%float = Normal true
  /\ embedded 1%float = Normal true
  /\ embedded 2%float = Normal false
  /\ embedded 0.5%float = Normal false
  /\ embedded (-1)%float = Normal false
  /\ embedded infinity = Normal false
  /\ embedded nan = Normal false.
Proof. repeat split. Qed.

(** A resource with one image file, download succeeding with the local path
    [/data/r1.png]. *)
Example getEmbeddedHtml_image :
  fst (getEmbeddedHtml (sampleResource (Fulfilled VUndefined, Late))
         (courseHelperOk "/data/r1.png") sampleMimetypeUtils
         (sampleModule [sampleFile "r1.png" "/"]) emptyWorld)
  = Fulfilled ("<img src=" ++ dq ++ "/data/r1.png" ++ dq ++ "></img>").
Proof. reflexivity. Qed.

(** A resource with one [.pdf] file whose download-and-open step fails with
    a storage error, course 7. *)
Example openModuleFile_pdf_storage_error :
  runToCompletion
    (openModuleFile sampleCourse (sampleResource (Fulfilled VUndefined, Late))
       (courseHelperFailing (VError "FileError" "storage"))
       (sampleModule [sampleFile "notes.pdf" "/"]) 7)
  = (Fulfilled VUndefined,
     [ShowModalLoading;
      DownloadModuleAndOpenFile 42 7 "mmaModResource" 42
        [sampleFile "notes.pdf" "/"];
      ShowErrorModalDefault (VError "FileError" "storage")
        "addon.mod_resource.errorwhileloadingthecontent" true;
      ModalDismiss]).
Proof. reflexivity. Qed.

Lemma isDisplayedInIframe_iff_witness :
  contents (sampleModule [sampleFile "index.html" "/"])
  = [sampleFile "index.html" "/"]
  /\ (isDisplayedInIframe sampleMimetypeUtils (mkFileProvider true)
        (sampleModule [sampleFile "index.html" "/"]) = Normal true
      <-> getMimeType sampleMimetypeUtils
            (getFileExtension sampleMimetypeUtils
               (filename (sampleFile "index.html" "/")))
          = "text/html"
          /\ isAvailable (mkFileProvider true) = true).
Proof.
  split; [reflexivity |].
  exact (proj1 (isDisplayedInIframe_iff sampleMimetypeUtils (mkFileProvider true)
                  (sampleModule [sampleFile "index.html" "/"])
                  (sampleFile "index.html" "/") [] eq_refl)).
Defined.

Lemma getIframeSrc_two_tier_witness :
  contents (sampleModule [sampleFile "index.html" "/docs/"])
  = [sampleFile "index.html" "/docs/"]
  /\ invoke
       (getIframeSrc (mkTextUtils String.append) (mkAppProvider true)
          (filepoolWith (Some "file:///cache/42/")) sampleSites
          (sampleModule [sampleFile "index.html" "/docs/"])) emptyWorld
     = Normal
         (Fulfilled "file:///cache/42/docs/index.html",
          lookedUp sampleSites (sampleModule [sampleFile "index.html" "/docs/"])
            emptyWorld)
  /\ invoke
       (getIframeSrc (mkTextUtils String.append) (mkAppProvider true)
          (filepoolWith None) sampleSites
          (sampleModule [sampleFile "index.html" "/docs/"])) emptyWorld
     = Normal
         (Fulfilled
            "https://school.example/pluginfile.php/42/docs/index.html?token=abc",
          lookedUp sampleSites (sampleModule [sampleFile "index.html" "/docs/"])
            emptyWorld)
  /\ invoke
       (getIframeSrc (mkTextUtils String.append) (mkAppProvider false)
          (filepoolWith None) sampleSites
          (sampleModule [sampleFile "index.html" "/docs/"])) emptyWorld
     = Normal
         (Rejected VNull,
          lookedUp sampleSites (sampleModule [sampleFile "index.html" "/docs/"])
            emptyWorld).
Proof.
  split; [reflexivity | split; [| split]].
  - exact (proj1 (proj1 (getIframeSrc_two_tier (mkTextUtils String.append)
                           (mkAppProvider true)
                           (filepoolWith (Some "file:///cache/42/")) sampleSites
                           (sampleModule [sampleFile "index.html" "/docs/"])
                           (sampleFile "index.html" "/docs/") [] emptyWorld eq_refl)
                   "file:///cache/42/" eq_refl)).
  - refine (proj1 (proj2 (getIframeSrc_two_tier (mkTextUtils String.append)
                            (mkAppProvider true) (filepoolWith None) sampleSites
                            (sampleModule [sampleFile "index.html" "/docs/"])
                            (sampleFile "index.html" "/docs/") [] emptyWorld eq_refl))
              (VError "Error" "no package directory")
              "https://school.example/pluginfile.php/42/docs/index.html"
              eq_refl eq_refl eq_refl _).
    discriminate.
  - exact (proj2 (proj2 (getIframeSrc_two_tier (mkTextUtils String.append)
                           (mkAppProvider false) (filepoolWith None) sampleSites
                           (sampleModule [sampleFile "index.html" "/docs/"])
                           (sampleFile "index.html" "/docs/") [] emptyWorld eq_refl))
             (VError "Error" "no package directory") eq_refl
             (or_introl eq_refl)).
Defined.

Lemma getIframeSrc_rejects_null_witness :
  contents (sampleModule []) = []
  /\ contents (sampleModule [mkFile "index.html" "/" None])
     = [mkFile "index.html" "/" None]
  /\ settledOf
       (invoke
          (getIframeSrc (mkTextUtils String.append) (mkAppProvider true)
             (filepoolWith None) sampleSites (sampleModule [])) emptyWorld)
     = settledOf
         (invoke
            (getIframeSrc (mkTextUtils String.append) (mkAppProvider true)
               (filepoolWith None) sampleSites
               (sampleModule [mkFile "index.html" "/" None])) emptyWorld).
Proof.
  split; [reflexivity | split; [reflexivity |]].
  exact (proj2 (proj2 (getIframeSrc_rejects_null (mkTextUtils String.append)
                         (mkAppProvider true) (filepoolWith None) sampleSites
                         (sampleModule [])
                         (sampleModule [mkFile "index.html" "/" None])
                         (mkFile "index.html" "/" None) [] emptyWorld emptyWorld
                         (VError "Error" "no package directory")
                         eq_refl eq_refl eq_refl (or_intror eq_refl)))).
Defined.

Lemma getIframeSrc_cache42_index_witness :
  contents (sampleModule [sampleFile "index.html" "/"])
  = [sampleFile "index.html" "/"]
  /\ packageDirLookup (filepoolWith (Some "/cache/42")) sampleSites
       (sampleModule [sampleFile "index.html" "/"])
     = Fulfilled "/cache/42"
  /\ settledOf
       (invoke
          (getIframeSrc textUtils_spec (mkAppProvider true)
             (filepoolWith (Some "/cache/42")) sampleSites
             (sampleModule [sampleFile "index.html" "/"])) emptyWorld)
     = Some (Fulfilled "/cache/42index.html").
Proof.
  split; [reflexivity | split; [reflexivity |]].
  exact (getIframeSrc_cache42_index (mkAppProvider true)
           (filepoolWith (Some "/cache/42")) sampleSites
           (sampleModule [sampleFile "index.html" "/"])
           (sampleFile "index.html" "/") emptyWorld
           eq_refl eq_refl eq_refl eq_refl).
Defined.

Lemma empty_contents_not_displayable_witness :
  contents (sampleModule []) = []
  /\ isDisplayedEmbedded sampleMimetypeUtils (mkFileProvider true)
       (sampleModule []) 1%float = Normal false
  /\ isDisplayedInIframe sampleMimetypeUtils (mkFileProvider true)
       (sampleModule []) = Normal false
  /\ invoke
       (getIframeSrc (mkTextUtils String.append) (mkAppProvider true)
          (filepoolWith (Some "/cache/42")) sampleSites (sampleModule []))
       emptyWorld
     = Normal (Rejected VNull, emptyWorld).
Proof.
  split; [reflexivity |].
  exact (empty_contents_not_displayable (mkTextUtils String.append)
           sampleMimetypeUtils (mkFileProvider true) (mkAppProvider true)
           (filepoolWith (Some "/cache/42")) sampleSites (sampleModule [])
           1%float emptyWorld eq_refl).
Defined.

Lemma getEmbeddedHtml_audio_video_witness :
  contents (sampleModule [sampleFile "song.mp3" "/"])
  = [sampleFile "song.mp3" "/"]
  /\ fst
       (getEmbeddedHtml (sampleResource (Fulfilled VUndefined, Late))
          (courseHelperOk "/data/song.mp3") sampleMimetypeUtils
          (sampleModule [sampleFile "song.mp3" "/"]) emptyWorld)
     = Fulfilled
         ("<audio controls title=" ++ dq ++ "song.mp3" ++ dq ++ dq
            ++ " src=" ++ dq ++ "/data/song.mp3" ++ dq ++ ">"
            ++ "<source src=" ++ dq ++ "/data/song.mp3" ++ dq
            ++ " type=" ++ dq ++ "audio/mp3" ++ dq ++ ">"
            ++ "</audio>").
Proof.
  split; [reflexivity |].
  exact (f_equal fst
           (getEmbeddedHtml_audio_video (sampleResource (Fulfilled VUndefined, Late))
              (courseHelperOk "/data/song.mp3") sampleMimetypeUtils
              (sampleModule [sampleFile "song.mp3" "/"])
              (sampleFile "song.mp3" "/") [] (mkDownloadResult "/data/song.mp3")
              emptyWorld "audio" eq_refl eq_refl eq_refl (or_introl eq_refl))).
Defined.

Lemma getEmbeddedHtml_empty_contents_witness :
  contents (sampleModule []) = []
  /\ fst
       (getEmbeddedHtml (sampleResource (Fulfilled VUndefined, Late))
          (courseHelperOk "/data/none") sampleMimetypeUtils
          (sampleModule []) emptyWorld)
     = Rejected (TypeError_undefined "filename").
Proof.
  split; [reflexivity |].
  exact (proj1 (proj2 (getEmbeddedHtml_empty_contents
                         (sampleResource (Fulfilled VUndefined, Late))
                         (courseHelperOk "/data/none") sampleMimetypeUtils
                         (sampleModule []) emptyWorld eq_refl))
           (mkDownloadResult "/data/none") eq_refl).
Defined.

(* ================================================================= *)
(** ** More on the embedded markup *)

Section EmbeddedHtmlBranches.

Variable resourceProvider : AddonModResourceProvider.
Variable courseHelper : CoreCourseHelperProvider.
Variable mimetypeUtils : CoreMimetypeUtilsProvider.

(** X1. When the download succeeds and the main file is classified as an
    image, [getEmbeddedHtml] resolves with one [img] element whose [src] is
    the local path of the download. *)
Theorem getEmbeddedHtml_image_markup (m : CourseModule) (file : File)
  (rest : list File) (result : DownloadResult) (w : World) :
  contents m = file :: rest ->
  mainFileDownload resourceProvider courseHelper m = Fulfilled result ->
  getExtensionType mimetypeUtils (getFileExtension mimetypeUtils (filename file))
  = "image" ->
  getEmbeddedHtml resourceProvider courseHelper mimetypeUtils m w
  = (Fulfilled ("<img src=" ++ dq ++ path result ++ dq ++ "></img>"),
     downloaded resourceProvider m w).
Proof.
  intros Hc Hd Ht.
  rewrite (getEmbeddedHtml_downloaded resourceProvider courseHelper mimetypeUtils
             m result w Hd).
  unfold embeddedHtmlOf.
  destruct (contents_cons m file rest Hc) as [_ ->]; simpl.
  rewrite Ht; reflexivity.
Qed.

(** X2. When the download succeeds and the main file is neither image,
    audio nor video, [getEmbeddedHtml] does not fail: it resolves with the
    empty string. *)
Theorem getEmbeddedHtml_other_category (m : CourseModule) (file : File)
  (rest : list File) (result : DownloadResult) (w : World) :
  contents m = file :: rest ->
  mainFileDownload resourceProvider courseHelper m = Fulfilled result ->
  getExtensionType mimetypeUtils (getFileExtension mimetypeUtils (filename file))
  <> "image" ->
  getExtensionType mimetypeUtils (getFileExtension mimetypeUtils (filename file))
  <> "audio" ->
  getExtensionType mimetypeUtils (getFileExtension mimetypeUtils (filename file))
  <> "video" ->
  getEmbeddedHtml resourceProvider courseHelper mimetypeUtils m w
  = (Fulfilled EmptyString, downloaded resourceProvider m w).
Proof.
  intros Hc Hd Hi Ha Hv.
  rewrite (getEmbeddedHtml_downloaded resourceProvider courseHelper mimetypeUtils
             m result w Hd).
  unfold embeddedHtmlOf.
  destruct (contents_cons m file rest Hc) as [_ ->]; simpl.
  apply String.eqb_neq in Hi, Ha, Hv.
  rewrite Hi, Ha, Hv; reflexivity.
Qed.

(** X3. When the download fails, [getEmbeddedHtml] is rejected with the
    reason of the download, unchanged, for every module; the download is the
    only call it has made. *)
Theorem getEmbeddedHtml_download_failure (m : CourseModule) (reason : JsVal)
  (w : World) :
  mainFileDownload resourceProvider courseHelper m = Rejected reason ->
  fst (getEmbeddedHtml resourceProvider courseHelper mimetypeUtils m w)
  = Rejected reason
  /\ trace (snd (getEmbeddedHtml resourceProvider courseHelper mimetypeUtils m w))
     = (trace w
          ++ [DownloadModuleWithMainFileIfNeeded
                (id m) (course m) (COMPONENT resourceProvider) (id m) (contents m)])%list
  /\ later (snd (getEmbeddedHtml resourceProvider courseHelper mimetypeUtils m w))
     = later w.
Proof.
  intros Hd; unfold getEmbeddedHtml, then_, call.
  unfold mainFileDownload in Hd; rewrite Hd; simpl.
  repeat split.
Qed.

(** X4. The markup depends on the module through its main file only, and on
    the download through its local path only: two modules whose first files
    have the same name, downloaded to the same path, get the same markup,
    whatever their other files. *)
Theorem getEmbeddedHtml_main_file_only (m1 m2 : CourseModule) (file1 file2 : File)
  (rest1 rest2 : list File) (result1 result2 : DownloadResult) (w1 w2 : World) :
  contents m1 = file1 :: rest1 ->
  contents m2 = file2 :: rest2 ->
  filename file1 = filename file2 ->
  mainFileDownload resourceProvider courseHelper m1 = Fulfilled result1 ->
  mainFileDownload resourceProvider courseHelper m2 = Fulfilled result2 ->
  path result1 = path result2 ->
  fst (getEmbeddedHtml resourceProvider courseHelper mimetypeUtils m1 w1)
  = fst (getEmbeddedHtml resourceProvider courseHelper mimetypeUtils m2 w2).
Proof.
  intros H1 H2 Hn Hd1 Hd2 Hp.
  rewrite (getEmbeddedHtml_downloaded resourceProvider courseHelper mimetypeUtils
             m1 result1 w1 Hd1).
  rewrite (getEmbeddedHtml_downloaded resourceProvider courseHelper mimetypeUtils
             m2 result2 w2 Hd2).
  unfold embeddedHtmlOf.
  destruct (contents_cons m1 file1 rest1 H1) as [_ ->].
  destruct (contents_cons m2 file2 rest2 H2) as [_ ->]; simpl.
  rewrite Hn, Hp.
  destruct (getExtensionType mimetypeUtils
              (getFileExtension mimetypeUtils (filename file2)) =? "image");
    [reflexivity |].
  destruct ((getExtensionType mimetypeUtils
               (getFileExtension mimetypeUtils (filename file2)) =? "audio")
            || (getExtensionType mimetypeUtils
                  (getFileExtension mimetypeUtils (filename file2)) =? "video"));
    reflexivity.
Qed.

End EmbeddedHtmlBranches.

(* ================================================================= *)
(** ** More on classification *)

Lemma noContents_firstContent (m : CourseModule) :
  noContents m = match firstContent m with Some _ => false | None => true end.
Proof.
  unfold noContents, firstContent; destruct (contents m); reflexivity.
Qed.

Lemma isDisplayedEmbedded_true_inv (mimetypeUtils : CoreMimetypeUtilsProvider)
  (fileProvider : CoreFileProvider) (m : CourseModule) (display : float) :
  isDisplayedEmbedded mimetypeUtils fileProvider m display = Normal true ->
  exists file rest,
    contents m = file :: rest
    /\ canBeEmbedded mimetypeUtils
         (getFileExtension mimetypeUtils (filename file)) = true
    /\ isAvailable fileProvider = true.
Proof.
  unfold isDisplayedEmbedded, noContents, firstContent.
  destruct (contents m) as [|file rest]; simpl; [discriminate |].
  destruct (isAvailable fileProvider); simpl; [| discriminate].
  intros [= H]; apply andb_true_iff in H as [_ H].
  exists file, rest; auto.
Qed.

Lemma isDisplayedInIframe_true_inv (mimetypeUtils : CoreMimetypeUtilsProvider)
  (fileProvider : CoreFileProvider) (m : CourseModule) :
  isDisplayedInIframe mimetypeUtils fileProvider m = Normal true ->
  exists file rest,
    contents m = file :: rest
    /\ getMimeType mimetypeUtils
         (getFileExtension mimetypeUtils (filename file)) = "text/html"
    /\ isAvailable fileProvider = true.
Proof.
  unfold isDisplayedInIframe, noContents, firstContent.
  destruct (contents m) as [|file rest]; simpl; [discriminate |].
  destruct (isAvailable fileProvider); simpl; [| discriminate].
  intros [= H]; apply String.eqb_eq in H.
  exists file, rest; auto.
Qed.

Section ClassificationEdges.

Variable mimetypeUtils : CoreMimetypeUtilsProvider.
Variable fileProvider : CoreFileProvider.

(** X5. Without local file storage nothing is displayed embedded or in an
    iframe, whatever the module, its files and the display mode. *)
Theorem storage_unavailable_not_displayable (m : CourseModule) (display : float) :
  isAvailable fileProvider = false ->
  isDisplayedEmbedded mimetypeUtils fileProvider m display = Normal false
  /\ isDisplayedInIframe mimetypeUtils fileProvider m = Normal false.
Proof.
  intros Ha; unfold isDisplayedEmbedded, isDisplayedInIframe.
  rewrite Ha; simpl; rewrite orb_true_r; split; reflexivity.
Qed.

(** X6. Both classifications look at the first content file only: two
    modules with the same first entry, or both without one, are classified
    alike, whatever their other files and fields. *)
Theorem classification_main_file_only (m1 m2 : CourseModule) (display : float) :
  firstContent m1 = firstContent m2 ->
  isDisplayedEmbedded mimetypeUtils fileProvider m1 display
  = isDisplayedEmbedded mimetypeUtils fileProvider m2 display
  /\ isDisplayedInIframe mimetypeUtils fileProvider m1
     = isDisplayedInIframe mimetypeUtils fileProvider m2.
Proof.
  intros Hf; unfold isDisplayedEmbedded, isDisplayedInIframe.
  rewrite !noContents_firstContent, Hf; split; reflexivity.
Qed.

(** X7. The two display modes are treated alike: a resource displayed
    embedded under some display mode is displayed embedded under the
    automatic mode and under the forced embed mode. *)
Theorem isDisplayedEmbedded_auto_embed_alike (m : CourseModule) (display : float) :
  isDisplayedEmbedded mimetypeUtils fileProvider m display = Normal true ->
  isDisplayedEmbedded mimetypeUtils fileProvider m DISPLAY_AUTO = Normal true
  /\ isDisplayedEmbedded mimetypeUtils fileProvider m DISPLAY_EMBED = Normal true.
Proof.
  intros H.
  destruct (isDisplayedEmbedded_true_inv mimetypeUtils fileProvider m display H)
    as (file & rest & Hc & He & Ha).
  unfold isDisplayedEmbedded.
  destruct (contents_cons m file rest Hc) as [-> ->].
  rewrite Ha; simpl; rewrite He; split; reflexivity.
Qed.

End ClassificationEdges.

(* ================================================================= *)
(** ** Classification, then production *)

Section ClassifyThenProduce.

Variable resourceProvider : AddonModResourceProvider.
Variable courseHelper : CoreCourseHelperProvider.
Variable textUtils : CoreTextUtilsProvider.
Variable mimetypeUtils : CoreMimetypeUtilsProvider.
Variable fileProvider : CoreFileProvider.
Variable appProvider : CoreAppProvider.
Variable filepoolProvider : CoreFilepoolProvider.
Variable sitesProvider : CoreSitesProvider.

(** X8. With a coherent classification utility, a resource that
    [isDisplayedEmbedded] accepts never reaches the empty default of
    [getEmbeddedHtml]: when the download succeeds the promise resolves with
    markup that is not empty. *)
Theorem embedded_then_markup (m : CourseModule) (display : float)
  (result : DownloadResult) (w : World) :
  embeddableIsMedia mimetypeUtils ->
  isDisplayedEmbedded mimetypeUtils fileProvider m display = Normal true ->
  mainFileDownload resourceProvider courseHelper m = Fulfilled result ->
  exists markup,
    fst (getEmbeddedHtml resourceProvider courseHelper mimetypeUtils m w)
    = Fulfilled markup
    /\ markup <> EmptyString.
Proof.
  intros Hcoh He Hd.
  destruct (isDisplayedEmbedded_true_inv mimetypeUtils fileProvider m display He)
    as (file & rest & Hc & Hemb & _).
  rewrite (getEmbeddedHtml_downloaded resourceProvider courseHelper mimetypeUtils
             m result w Hd).
  unfold embeddedHtmlOf.
  destruct (contents_cons m file rest Hc) as [_ ->]; simpl.
  destruct (Hcoh _ Hemb) as [Ht | [Ht | Ht]]; rewrite Ht; simpl;
    eexists; (split; [reflexivity | discriminate]).
Qed.

(** X9. A resource that [isDisplayedInIframe] accepts has a main file, so
    [getIframeSrc] does not reject it out of hand: it returns a promise
    after asking the filepool for the package directory, once. *)
Theorem iframe_then_lookup (m : CourseModule) (w : World) :
  isDisplayedInIframe mimetypeUtils fileProvider m = Normal true ->
  exists r w',
    invoke (getIframeSrc textUtils appProvider filepoolProvider sitesProvider m) w
    = Normal (r, w')
    /\ trace w'
       = (trace w
            ++ [GetPackageDirUrlByUrl (getCurrentSiteId sitesProvider) (url m)])%list.
Proof.
  intros Hi.
  destruct (isDisplayedInIframe_true_inv mimetypeUtils fileProvider m Hi)
    as (file & rest & Hc & _ & _).
  unfold getIframeSrc.
  destruct (contents_cons m file rest Hc) as [-> ->]; simpl.
  unfold catch_, then_, call, Promise_resolve, Promise_reject.
  destruct (getPackageDirUrlByUrl filepoolProvider
              (getCurrentSiteId sitesProvider) (url m)) as [dir | reason].
  - eexists; eexists; split; reflexivity.
  - destruct (isOnline appProvider && truthy (fileurl file));
      [destruct (fileurl file) |]; eexists; eexists; split; reflexivity.
Qed.

End ClassifyThenProduce.

(* ================================================================= *)
(** ** More on the source of the iframe *)

(** The test on the root sub-path changes nothing: the relative path is
    always the sub-path without its first character, then the file name. *)
Lemma mainFilePath_substr (mainFile : File) :
  mainFilePath mainFile = substr 1 (filepath mainFile) ++ filename mainFile.
Proof.
  unfold mainFilePath.
  destruct (String.eqb_spec (filepath mainFile) "/") as [-> | _]; reflexivity.
Qed.

(** X10. With a cached package directory, the relative path handed to
    [concatenatePaths] is the sub-path without its first character,
    whatever that character is, followed by the file name: a sub-path that
    does not start with the separator loses its first character too, and an
    empty sub-path gives the file name. *)
Theorem getIframeSrc_drops_first_character (textUtils : CoreTextUtilsProvider)
  (appProvider : CoreAppProvider) (filepoolProvider : CoreFilepoolProvider)
  (sitesProvider : CoreSitesProvider) (m : CourseModule) (mainFile : File)
  (rest : list File) (w : World) (dirPath : string) :
  contents m = mainFile :: rest ->
  packageDirLookup filepoolProvider sitesProvider m = Fulfilled dirPath ->
  settledOf
    (invoke (getIframeSrc textUtils appProvider filepoolProvider sitesProvider m) w)
  = Some (Fulfilled
            (concatenatePaths textUtils dirPath
               (substr 1 (filepath mainFile) ++ filename mainFile)))
  /\ (forall c sub,
         filepath mainFile = String c sub ->
         settledOf
           (invoke (getIframeSrc textUtils appProvider filepoolProvider
                      sitesProvider m) w)
         = Some (Fulfilled
                   (concatenatePaths textUtils dirPath (sub ++ filename mainFile))))
  /\ (filepath mainFile = EmptyString ->
      settledOf
        (invoke (getIframeSrc textUtils appProvider filepoolProvider
                   sitesProvider m) w)
      = Some (Fulfilled (concatenatePaths textUtils dirPath (filename mainFile)))).
Proof.
  intros Hc Hl.
  rewrite (getIframeSrc_cached textUtils appProvider filepoolProvider sitesProvider
             m mainFile rest w dirPath Hc Hl).
  rewrite mainFilePath_substr; simpl.
  split; [reflexivity | split].
  - intros c sub ->; reflexivity.
  - intros ->; reflexivity.
Qed.

(** X11. The cached copy wins: when the package directory is found, the
    result depends on the directory and on the name and sub-path of the main
    file only.  Connectivity, the remote URL of the file, the other files
    and the other fields of the module play no part. *)
Theorem getIframeSrc_cached_wins (textUtils : CoreTextUtilsProvider)
  (appProvider1 appProvider2 : CoreAppProvider)
  (filepoolProvider : CoreFilepoolProvider) (sitesProvider : CoreSitesProvider)
  (m1 m2 : CourseModule) (file1 file2 : File) (rest1 rest2 : list File)
  (w : World) (dirPath : string) :
  url m1 = url m2 ->
  contents m1 = file1 :: rest1 ->
  contents m2 = file2 :: rest2 ->
  filename file1 = filename file2 ->
  filepath file1 = filepath file2 ->
  packageDirLookup filepoolProvider sitesProvider m1 = Fulfilled dirPath ->
  invoke (getIframeSrc textUtils appProvider1 filepoolProvider sitesProvider m1) w
  = invoke (getIframeSrc textUtils appProvider2 filepoolProvider sitesProvider m2) w.
Proof.
  intros Hu H1 H2 Hn Hp Hl.
  assert (Hl2 : packageDirLookup filepoolProvider sitesProvider m2 = Fulfilled dirPath).
  { unfold packageDirLookup in *; rewrite <- Hu; exact Hl. }
  rewrite (getIframeSrc_cached textUtils appProvider1 filepoolProvider sitesProvider
             m1 file1 rest1 w dirPath H1 Hl).
  rewrite (getIframeSrc_cached textUtils appProvider2 filepoolProvider sitesProvider
             m2 file2 rest2 w dirPath H2 Hl2).
  rewrite !mainFilePath_substr, Hn, Hp.
  unfold lookedUp; rewrite Hu; reflexivity.
Qed.

(** X12. Without a cached package directory, [getIframeSrc] resolves
    exactly when the device is online and the remote URL of the main file is
    present and not the empty string; an empty URL counts as no URL. *)
Theorem getIframeSrc_remote_iff (textUtils : CoreTextUtilsProvider)
  (appProvider : CoreAppProvider) (filepoolProvider : CoreFilepoolProvider)
  (sitesProvider : CoreSitesProvider) (m : CourseModule) (mainFile : File)
  (rest : list File) (w : World) (reason : JsVal) :
  contents m = mainFile :: rest ->
  packageDirLookup filepoolProvider sitesProvider m = Rejected reason ->
  (exists src,
      settledOf
        (invoke (getIframeSrc textUtils appProvider filepoolProvider
                   sitesProvider m) w)
      = Some (Fulfilled src))
  <-> isOnline appProvider = true
      /\ exists remote, fileurl mainFile = Some remote /\ remote <> EmptyString.
Proof.
  intros Hc Hl; split.
  - intros [src Hs].
    destruct (isOnline appProvider) eqn:Ho.
    + destruct (fileurl mainFile) as [[|c remote] |] eqn:Hu.
      * rewrite (getIframeSrc_no_fallback textUtils appProvider filepoolProvider
                   sitesProvider m mainFile rest w reason Hc Hl) in Hs;
          [discriminate | right; rewrite Hu; reflexivity].
      * split; [reflexivity | exists (String c remote); split; [reflexivity | discriminate]].
      * rewrite (getIframeSrc_no_fallback textUtils appProvider filepoolProvider
                   sitesProvider m mainFile rest w reason Hc Hl) in Hs;
          [discriminate | right; rewrite Hu; reflexivity].
    + rewrite (getIframeSrc_no_fallback textUtils appProvider filepoolProvider
                 sitesProvider m mainFile rest w reason Hc Hl) in Hs;
        [discriminate | left; exact Ho].
  - intros (Ho & remote & Hu & Hne).
    exists (fixPluginfileURL sitesProvider remote).
    rewrite (getIframeSrc_remote textUtils appProvider filepoolProvider
               sitesProvider m mainFile rest w reason remote Hc Hl Ho Hu Hne).
    reflexivity.
Qed.

(* ================================================================= *)
(** ** More on opening the file of a resource *)

Section OpenModuleFileReporting.

Variable courseProvider : CoreCourseProvider.
Variable resourceProvider : AddonModResourceProvider.
Variable courseHelper : CoreCourseHelperProvider.

(** X13. Every run of [openModuleFile] attempts the download and open once,
    and then does one of two things: on success it logs the view once and
    shows no error; on failure it shows the error once, and neither logs the
    view nor checks the completion. *)
Theorem openModuleFile_log_or_error (m : CourseModule) (courseId : Z) :
  count isOpenAttempt
    (eventsOf (openModuleFile courseProvider resourceProvider courseHelper m courseId))
  = 1%nat
  /\ (forall value,
         openOutcome resourceProvider courseHelper m courseId = Fulfilled value ->
         count isLogView
           (eventsOf (openModuleFile courseProvider resourceProvider courseHelper
                        m courseId)) = 1%nat
         /\ count isErrorModal
              (eventsOf (openModuleFile courseProvider resourceProvider courseHelper
                           m courseId)) = 0%nat)
  /\ (forall error,
         openOutcome resourceProvider courseHelper m courseId = Rejected error ->
         count isErrorModal
           (eventsOf (openModuleFile courseProvider resourceProvider courseHelper
                        m courseId)) = 1%nat
         /\ count isLogView
              (eventsOf (openModuleFile courseProvider resourceProvider courseHelper
                           m courseId)) = 0%nat
         /\ count isCheckCompletion
              (eventsOf (openModuleFile courseProvider resourceProvider courseHelper
                           m courseId)) = 0%nat).
Proof.
  unfold eventsOf; rewrite openModuleFile_run; unfold openAttempt; simpl.
  split; [| split].
  - destruct (openOutcome resourceProvider courseHelper m courseId) as [v | e];
      [| reflexivity].
    destruct (logView resourceProvider (instance m)) as [[v' | e'] [|]];
      reflexivity.
  - intros value ->.
    destruct (logView resourceProvider (instance m)) as [[v' | e'] [|]];
      split; reflexivity.
  - intros error ->; repeat split.
Qed.

(** X14. The completion of the module is checked exactly when both the
    download and open and the view log succeed, and then once, for the
    course and completion status passed in, after the view was logged; a
    failed view log is dropped without a check. *)
Theorem openModuleFile_completion_check (m : CourseModule) (courseId : Z) :
  (count isCheckCompletion
     (eventsOf (openModuleFile courseProvider resourceProvider courseHelper m courseId))
   = 1%nat
   \/ count isCheckCompletion
        (eventsOf (openModuleFile courseProvider resourceProvider courseHelper
                     m courseId))
      = 0%nat)
  /\ (count isCheckCompletion
        (eventsOf (openModuleFile courseProvider resourceProvider courseHelper
                     m courseId))
      = 1%nat
      <-> (exists value,
              openOutcome resourceProvider courseHelper m courseId = Fulfilled value)
          /\ (exists value timing,
                 logView resourceProvider (instance m) = (Fulfilled value, timing)))
  /\ (count isCheckCompletion
        (eventsOf (openModuleFile courseProvider resourceProvider courseHelper
                     m courseId))
      = 1%nat ->
      happensBefore (LogView (instance m))
        (CheckModuleCompletion courseId (completionstatus m))
        (eventsOf (openModuleFile courseProvider resourceProvider courseHelper
                     m courseId))).
Proof.
  unfold eventsOf; rewrite openModuleFile_run; unfold openAttempt; simpl.
  destruct (openOutcome resourceProvider courseHelper m courseId) as [v | e].
  - destruct (logView resourceProvider (instance m)) as [[v' | e'] [|]]; simpl;
      (split; [auto | split; [split |]]).
    + intros _; split; [exists v; reflexivity | exists v', Early; reflexivity].
    + reflexivity.
    + intros _.
      exists [ShowModalLoading;
              DownloadModuleAndOpenFile (id m) courseId (COMPONENT resourceProvider)
                (id m) (contents m)], [], [ModalDismiss].
      reflexivity.
    + intros _; split; [exists v; reflexivity | exists v', Late; reflexivity].
    + reflexivity.
    + intros _.
      exists [ShowModalLoading;
              DownloadModuleAndOpenFile (id m) courseId (COMPONENT resourceProvider)
                (id m) (contents m)], [ModalDismiss], [].
      reflexivity.
    + discriminate.
    + intros (_ & value & timing & [=]).
    + discriminate.
    + discriminate.
    + intros (_ & value & timing & [=]).
    + discriminate.
  - split; [auto | split; [split |]].
    + discriminate.
    + intros ((value & [=]) & _).
    + discriminate.
Qed.


End OpenModuleFileReporting.

(* ================================================================= *)
(** ** Further worked scenarios *)

Lemma sampleMimetypeUtils_coherent : embeddableIsMedia sampleMimetypeUtils.
Proof.
  intros ext; simpl.
  destruct (ext =? "png"); [auto |].
  destruct (ext =? "mp3"); [auto |].
  destruct (ext =? "mp4"); [auto | discriminate].
Qed.

Lemma getEmbeddedHtml_image_markup_witness :
  getEmbeddedHtml (sampleResource (Fulfilled VUndefined, Late))
    (courseHelperOk "/data/r1.png") sampleMimetypeUtils
    (sampleModule [sampleFile "r1.png" "/"; sampleFile "notes.pdf" "/"]) emptyWorld
  = (Fulfilled ("<img src=" ++ dq ++ "/data/r1.png" ++ dq ++ "></img>"),
     downloaded (sampleResource (Fulfilled VUndefined, Late))
       (sampleModule [sampleFile "r1.png" "/"; sampleFile "notes.pdf" "/"])
       emptyWorld).
Proof.
  exact (getEmbeddedHtml_image_markup (sampleResource (Fulfilled VUndefined, Late))
           (courseHelperOk "/data/r1.png") sampleMimetypeUtils
           (sampleModule [sampleFile "r1.png" "/"; sampleFile "notes.pdf" "/"])
           (sampleFile "r1.png" "/") [sampleFile "notes.pdf" "/"]
           (mkDownloadResult "/data/r1.png") emptyWorld
           eq_refl eq_refl eq_refl).
Defined.

Lemma getEmbeddedHtml_other_category_witness :
  getEmbeddedHtml (sampleResource (Fulfilled VUndefined, Late))
    (courseHelperOk "/data/notes.pdf") sampleMimetypeUtils
    (sampleModule [sampleFile "notes.pdf" "/"]) emptyWorld
  = (Fulfilled EmptyString,
     downloaded (sampleResource (Fulfilled VUndefined, Late))
       (sampleModule [sampleFile "notes.pdf" "/"]) emptyWorld).
Proof.
  refine (getEmbeddedHtml_other_category (sampleResource (Fulfilled VUndefined, Late))
            (courseHelperOk "/data/notes.pdf") sampleMimetypeUtils
            (sampleModule [sampleFile "notes.pdf" "/"])
            (sampleFile "notes.pdf" "/") [] (mkDownloadResult "/data/notes.pdf")
            emptyWorld eq_refl eq_refl _ _ _);
    simpl; discriminate.
Defined.

Lemma getEmbeddedHtml_download_failure_witness :
  fst (getEmbeddedHtml (sampleResource (Fulfilled VUndefined, Late))
         (courseHelperFailing (VError "FileError" "storage")) sampleMimetypeUtils
         (sampleModule [sampleFile "r1.png" "/"]) emptyWorld)
  = Rejected (VError "FileError" "storage").
Proof.
  exact (proj1 (getEmbeddedHtml_download_failure
                  (sampleResource (Fulfilled VUndefined, Late))
                  (courseHelperFailing (VError "FileError" "storage"))
                  sampleMimetypeUtils (sampleModule [sampleFile "r1.png" "/"])
                  (VError "FileError" "storage") emptyWorld eq_refl)).
Defined.

Lemma getEmbeddedHtml_main_file_only_witness :
  fst (getEmbeddedHtml (sampleResource (Fulfilled VUndefined, Late))
         (courseHelperOk "/data/song.mp3") sampleMimetypeUtils
         (sampleModule [sampleFile "song.mp3" "/"]) emptyWorld)
  = fst (getEmbeddedHtml (sampleResource (Fulfilled VUndefined, Late))
           (courseHelperOk "/data/song.mp3") sampleMimetypeUtils
           (sampleModule [mkFile "song.mp3" "/audio/" None;
                          sampleFile "cover.png" "/"]) emptyWorld).
Proof.
  exact (getEmbeddedHtml_main_file_only (sampleResource (Fulfilled VUndefined, Late))
           (courseHelperOk "/data/song.mp3") sampleMimetypeUtils
           (sampleModule [sampleFile "song.mp3" "/"])
           (sampleModule [mkFile "song.mp3" "/audio/" None;
                          sampleFile "cover.png" "/"])
           (sampleFile "song.mp3" "/") (mkFile "song.mp3" "/audio/" None)
           [] [sampleFile "cover.png" "/"]
           (mkDownloadResult "/data/song.mp3") (mkDownloadResult "/data/song.mp3")
           emptyWorld emptyWorld
           eq_refl eq_refl eq_refl eq_refl eq_refl eq_refl).
Defined.

Lemma storage_unavailable_not_displayable_witness :
  isDisplayedEmbedded sampleMimetypeUtils (mkFileProvider false)
    (sampleModule [sampleFile "song.mp3" "/"]) 1%float = Normal false
  /\ isDisplayedInIframe sampleMimetypeUtils (mkFileProvider false)
       (sampleModule [sampleFile "song.mp3" "/"]) = Normal false.
Proof.
  exact (storage_unavailable_not_displayable sampleMimetypeUtils
           (mkFileProvider false) (sampleModule [sampleFile "song.mp3" "/"])
           1%float eq_refl).
Defined.

Lemma classification_main_file_only_witness :
  isDisplayedEmbedded sampleMimetypeUtils (mkFileProvider true)
    (sampleModule [sampleFile "song.mp3" "/"]) 0%float
  = isDisplayedEmbedded sampleMimetypeUtils (mkFileProvider true)
      (mkCourseModule 9 3 2 "https://other.example/"
         [sampleFile "song.mp3" "/"; sampleFile "index.html" "/"] VNull) 0%float
  /\ isDisplayedInIframe sampleMimetypeUtils (mkFileProvider true)
       (sampleModule [sampleFile "song.mp3" "/"])
     = isDisplayedInIframe sampleMimetypeUtils (mkFileProvider true)
         (mkCourseModule 9 3 2 "https://other.example/"
            [sampleFile "song.mp3" "/"; sampleFile "index.html" "/"] VNull).
Proof.
  exact (classification_main_file_only sampleMimetypeUtils (mkFileProvider true)
           (sampleModule [sampleFile "song.mp3" "/"])
           (mkCourseModule 9 3 2 "https://other.example/"
              [sampleFile "song.mp3" "/"; sampleFile "index.html" "/"] VNull)
           0%float eq_refl).
Defined.

Lemma isDisplayedEmbedded_auto_embed_alike_witness :
  isDisplayedEmbedded sampleMimetypeUtils (mkFileProvider true)
    (sampleModule [sampleFile "song.mp3" "/"]) DISPLAY_AUTO = Normal true
  /\ isDisplayedEmbedded sampleMimetypeUtils (mkFileProvider true)
       (sampleModule [sampleFile "song.mp3" "/"]) DISPLAY_EMBED = Normal true.
Proof.
  exact (isDisplayedEmbedded_auto_embed_alike sampleMimetypeUtils
           (mkFileProvider true) (sampleModule [sampleFile "song.mp3" "/"])
           1%float eq_refl).
Defined.

Lemma embedded_then_markup_witness :
  exists markup,
    fst (getEmbeddedHtml (sampleResource (Fulfilled VUndefined, Late))
           (courseHelperOk "/data/clip.mp4") sampleMimetypeUtils
           (sampleModule [sampleFile "clip.mp4" "/"]) emptyWorld)
    = Fulfilled markup
    /\ markup <> EmptyString.
Proof.
  exact (embedded_then_markup (sampleResource (Fulfilled VUndefined, Late))
           (courseHelperOk "/data/clip.mp4") sampleMimetypeUtils
           (mkFileProvider true) (sampleModule [sampleFile "clip.mp4" "/"])
           0%float (mkDownloadResult "/data/clip.mp4") emptyWorld
           sampleMimetypeUtils_coherent eq_refl eq_refl).
Defined.

Lemma iframe_then_lookup_witness :
  exists r w',
    invoke (getIframeSrc (mkTextUtils String.append) (mkAppProvider false)
              (filepoolWith None) sampleSites
              (sampleModule [sampleFile "index.html" "/"])) emptyWorld
    = Normal (r, w')
    /\ trace w'
       = (trace emptyWorld
            ++ [GetPackageDirUrlByUrl (getCurrentSiteId sampleSites)
                  (url (sampleModule [sampleFile "index.html" "/"]))])%list.
Proof.
  exact (iframe_then_lookup (mkTextUtils String.append) sampleMimetypeUtils
           (mkFileProvider true) (mkAppProvider false) (filepoolWith None)
           sampleSites (sampleModule [sampleFile "index.html" "/"]) emptyWorld
           eq_refl).
Defined.

Lemma getIframeSrc_drops_first_character_witness :
  settledOf
    (invoke (getIframeSrc (mkTextUtils String.append) (mkAppProvider true)
               (filepoolWith (Some "file:///cache/42/")) sampleSites
               (sampleModule [mkFile "index.html" "docs/" None])) emptyWorld)
  = Some (Fulfilled "file:///cache/42/ocs/index.html").
Proof.
  exact (proj1 (getIframeSrc_drops_first_character (mkTextUtils String.append)
                  (mkAppProvider true) (filepoolWith (Some "file:///cache/42/"))
                  sampleSites (sampleModule [mkFile "index.html" "docs/" None])
                  (mkFile "index.html" "docs/" None) [] emptyWorld
                  "file:///cache/42/" eq_refl eq_refl)).
Defined.

Lemma getIframeSrc_cached_wins_witness :
  invoke (getIframeSrc (mkTextUtils String.append) (mkAppProvider true)
            (filepoolWith (Some "file:///cache/42/")) sampleSites
            (sampleModule [sampleFile "index.html" "/docs/"])) emptyWorld
  = invoke (getIframeSrc (mkTextUtils String.append) (mkAppProvider false)
              (filepoolWith (Some "file:///cache/42/")) sampleSites
              (sampleModule [mkFile "index.html" "/docs/" None;
                             sampleFile "style.css" "/docs/"])) emptyWorld.
Proof.
  exact (getIframeSrc_cached_wins (mkTextUtils String.append)
           (mkAppProvider true) (mkAppProvider false)
           (filepoolWith (Some "file:///cache/42/")) sampleSites
           (sampleModule [sampleFile "index.html" "/docs/"])
           (sampleModule [mkFile "index.html" "/docs/" None;
                          sampleFile "style.css" "/docs/"])
           (sampleFile "index.html" "/docs/") (mkFile "index.html" "/docs/" None)
           [] [sampleFile "style.css" "/docs/"] emptyWorld "file:///cache/42/"
           eq_refl eq_refl eq_refl eq_refl eq_refl eq_refl).
Defined.

Lemma getIframeSrc_remote_iff_witness :
  (exists src,
      settledOf
        (invoke (getIframeSrc (mkTextUtils String.append) (mkAppProvider true)
                   (filepoolWith None) sampleSites
                   (sampleModule [mkFile "index.html" "/" (Some EmptyString)]))
           emptyWorld)
      = Some (Fulfilled src))
  <-> isOnline (mkAppProvider true) = true
      /\ exists remote,
           fileurl (mkFile "index.html" "/" (Some EmptyString)) = Some remote
           /\ remote <> EmptyString.
Proof.
  exact (getIframeSrc_remote_iff (mkTextUtils String.append) (mkAppProvider true)
           (filepoolWith None) sampleSites
           (sampleModule [mkFile "index.html" "/" (Some EmptyString)])
           (mkFile "index.html" "/" (Some EmptyString)) [] emptyWorld
           (VError "Error" "no package directory") eq_refl eq_refl).
Defined.

